(** * Register.jsx: the registration page of sehat-saathi-app

    A shallow embedding of [frontend/src/pages/register/Register.jsx]:
    the React state hooks of the [Register] component, its event
    handlers ([handleGetStarted], [handleRegister], [performRegister])
    and the part of the render that decides what the user sees
    (which controls are offered, whether the error paragraph is shown).

    The handlers are written in a small state monad over the page: the
    hook values, the DOM value behind [emailRef], the axios promises that
    are still pending and the chronological log of calls made to
    collaborators ([e.preventDefault], [RegexUtil], [axios.post],
    [navigate]). *)

From Stdlib Require Import String Ascii List Bool Arith Lia ZArith DecimalString.
Import ListNotations.
Local Open Scope string_scope.
Local Open Scope list_scope.

(** ** Constants of the component *)

(** [const ERROR_MESSAGES = { ... }] (lines 18-25). *)
Module ERROR_MESSAGES.
Definition EXISTING_CREDENTIALS_ERROR : string :=
  "Email, phone number, or username already taken.".
Definition INVALID_EMAIL_ERROR : string := "Invalid email format.".
Definition INVALID_PHONE_ERROR : string := "Invalid phone format.".
Definition INVALID_USERNAME_ERROR : string :=
  "Invalid username. Username cannot contain spaces and minimum length must be at least ".
Definition INVALID_PASSWORD_ERROR : string :=
  "Invalid password. The length must be at least ".
Definition GENERIC_SERVER_ERROR : string :=
  "There was a problem registering your account. Please try again later.".
End ERROR_MESSAGES.
Import ERROR_MESSAGES.

(** ** Imported collaborators

    [../../utils/regex-util] and [../../routes] are imported by the page
    but are separate files; the page only uses the members below, so they
    are taken as an interface. *)

Class RegexUtil : Type := {
  isValidEmailFormat : string -> bool;
  isValidPhoneFormat : string -> bool;
  isValidUsernameFormat : string -> bool;
  isValidPasswordFormat : string -> bool;
  MIN_USERNAME_LENGTH : nat;
  MIN_PASSWORD_LENGTH : nat
}.

Record Routes : Type := { LOGIN : string }.

(** JavaScript's [string + number]: the number is printed in decimal. *)
Definition string_of_number (n : nat) : string :=
  NilEmpty.string_of_uint (Nat.to_uint n).

(** ** The hooks of the component (lines 31-43) *)

Record State : Type := mkState {
  email : string;
  phone : string;
  password : string;
  username : string;
  isValidCredentials : bool;
  clickedGetStarted : bool;
  errorMessage : string
}.

(** [useState] initial values. *)
Definition initialState : State :=
  {| email := ""; phone := ""; password := ""; username := "";
     isValidCredentials := true;
     clickedGetStarted := false;
     errorMessage := EXISTING_CREDENTIALS_ERROR |}.

(** ** Calls to collaborators *)

(** The four checks of [handleRegister], in no particular order here. *)
Inductive Rule : Type := EmailRule | PhoneRule | UsernameRule | PasswordRule.

(** The JSON body of the POST (lines 111-116). *)
Record RegisterBody : Type := {
  body_username : string;
  body_email : string;
  body_phone : string;
  body_password : string
}.

(** The options object given to [navigate] (lines 119-123). *)
Record NavigateOptions : Type := { justRegistered : bool }.

Inductive Effect : Type :=
| PreventDefault
| RegexCall (r : Rule) (arg : string)
| AxiosPost (url : string) (body : RegisterBody)
| Navigate (to : string) (state : NavigateOptions).

(** What the awaited [axios.post] promise settles to.  A rejection
    carries [err]; [err.response] is absent for transport failures. *)
Record Response : Type := { status : Z }.
Record AxiosError : Type := { response : option Response }.
Inductive Settlement : Type :=
| Fulfilled
| Thrown (err : AxiosError).

(** ** The page *)

Record Page : Type := mkPage {
  hooks : State;                 (* values of the state hooks *)
  emailRef : string;             (* emailRef.current.value *)
  pending : list RegisterBody;   (* posts whose promise has not settled *)
  effects : list Effect          (* collaborator calls, oldest first *)
}.

Definition initialPage : Page :=
  {| hooks := initialState; emailRef := ""; pending := []; effects := [] |}.

(** ** Handler monad *)

Definition Handler (A : Type) : Type := Page -> A * Page.

Definition ret {A} (a : A) : Handler A := fun p => (a, p).

Definition bind {A B} (m : Handler A) (k : A -> Handler B) : Handler B :=
  fun p => let (a, p') := m p in k a p'.

Definition exec {A} (m : Handler A) (p : Page) : Page := snd (m p).

Declare Scope handler_scope.
Delimit Scope handler_scope with handler.
Notation "x <- m ;; k" := (bind m (fun x => k))
  (at level 61, m at next level, right associativity) : handler_scope.
Notation "m ;; k" := (bind m (fun _ => k))
  (at level 61, right associativity) : handler_scope.
Local Open Scope handler_scope.

Definition emit (e : Effect) : Handler unit :=
  fun p => (tt, {| hooks := hooks p; emailRef := emailRef p;
                   pending := pending p; effects := effects p ++ [e] |}).

Definition setHooks (f : State -> State) : Handler unit :=
  fun p => (tt, {| hooks := f (hooks p); emailRef := emailRef p;
                   pending := pending p; effects := effects p |}).

(** *** The state setters returned by [useState] *)

Definition withEmail (v : string) (s : State) : State :=
  {| email := v; phone := phone s; password := password s;
     username := username s; isValidCredentials := isValidCredentials s;
     clickedGetStarted := clickedGetStarted s; errorMessage := errorMessage s |}.
Definition withPhone (v : string) (s : State) : State :=
  {| email := email s; phone := v; password := password s;
     username := username s; isValidCredentials := isValidCredentials s;
     clickedGetStarted := clickedGetStarted s; errorMessage := errorMessage s |}.
Definition withPassword (v : string) (s : State) : State :=
  {| email := email s; phone := phone s; password := v;
     username := username s; isValidCredentials := isValidCredentials s;
     clickedGetStarted := clickedGetStarted s; errorMessage := errorMessage s |}.
Definition withUsername (v : string) (s : State) : State :=
  {| email := email s; phone := phone s; password := password s;
     username := v; isValidCredentials := isValidCredentials s;
     clickedGetStarted := clickedGetStarted s; errorMessage := errorMessage s |}.
Definition withIsValidCredentials (v : bool) (s : State) : State :=
  {| email := email s; phone := phone s; password := password s;
     username := username s; isValidCredentials := v;
     clickedGetStarted := clickedGetStarted s; errorMessage := errorMessage s |}.
Definition withClickedGetStarted (v : bool) (s : State) : State :=
  {| email := email s; phone := phone s; password := password s;
     username := username s; isValidCredentials := isValidCredentials s;
     clickedGetStarted := v; errorMessage := errorMessage s |}.
Definition withErrorMessage (v : string) (s : State) : State :=
  {| email := email s; phone := phone s; password := password s;
     username := username s; isValidCredentials := isValidCredentials s;
     clickedGetStarted := clickedGetStarted s; errorMessage := v |}.

Definition setEmail (v : string) : Handler unit := setHooks (withEmail v).
Definition setPhone (v : string) : Handler unit := setHooks (withPhone v).
Definition setPassword (v : string) : Handler unit := setHooks (withPassword v).
Definition setUsername (v : string) : Handler unit := setHooks (withUsername v).
Definition setIsValidCredentials (v : bool) : Handler unit :=
  setHooks (withIsValidCredentials v).
Definition setclickedGetStarted (v : bool) : Handler unit :=
  setHooks (withClickedGetStarted v).
Definition setErrorMessage (v : string) : Handler unit :=
  setHooks (withErrorMessage v).

(** The browser stores the typed text in the email [<input>] before the
    [onChange] handler runs; [emailRef] points at that element. *)
Definition inputEmailBox (v : string) : Handler unit :=
  fun p => (tt, {| hooks := hooks p; emailRef := v;
                   pending := pending p; effects := effects p |}).

(** [e.preventDefault()]. *)
Definition preventDefault : Handler unit := emit PreventDefault.

(** [navigate(to, { state })]. *)
Definition navigate (to : string) (st : NavigateOptions) : Handler unit :=
  emit (Navigate to st).

(** [axios.post(url, body)]: the request leaves and its promise is
    pending until it settles. *)
Definition axios_post (url : string) (body : RegisterBody) : Handler unit :=
  fun p => (tt, {| hooks := hooks p; emailRef := emailRef p;
                   pending := pending p ++ [body];
                   effects := effects p ++ [AxiosPost url body] |}).

(** The promise at position [i] of the pending list leaves it. *)
Fixpoint remove_nth {A} (i : nat) (l : list A) : list A :=
  match l, i with
  | [], _ => []
  | _ :: t, O => t
  | x :: t, S j => x :: remove_nth j t
  end.

Definition settlePending (i : nat) : Handler unit :=
  fun p => (tt, {| hooks := hooks p; emailRef := emailRef p;
                   pending := remove_nth i (pending p);
                   effects := effects p |}).

(** [isEmailBoxFilled] (lines 49-51). *)
Definition isEmailBoxFilled : Handler bool :=
  fun p => (Nat.ltb 0 (String.length (emailRef p)), p).

(** [err.response && err.response.status === 403] (line 125). *)
Definition isStatus403 (err : AxiosError) : bool :=
  match response err with
  | Some r => Z.eqb (status r) 403
  | None => false
  end.

Section Register.

Context {regexUtil : RegexUtil}.
Variable ROUTES : Routes.

(** The member of [RegexUtil] behind each rule. *)
Definition applyRule (r : Rule) (arg : string) : bool :=
  match r with
  | EmailRule => isValidEmailFormat arg
  | PhoneRule => isValidPhoneFormat arg
  | UsernameRule => isValidUsernameFormat arg
  | PasswordRule => isValidPasswordFormat arg
  end.

(** A call [RegexUtil.isValid...Format(arg)]; the call is logged. *)
Definition callRegexUtil (r : Rule) (arg : string) : Handler bool :=
  emit (RegexCall r arg) ;; ret (applyRule r arg).

(** [performRegister] (lines 108-132) up to its [await]: the POST is
    issued with the field values of the render [r] the handler closes
    over. *)
Definition performRegister (r : State) : Handler unit :=
  axios_post "auth/register"
    {| body_username := username r; body_email := email r;
       body_phone := phone r; body_password := password r |}.

(** [performRegister] after its [await]: the rest of the [try] block
    when the promise is fulfilled, the [catch] block when it throws. *)
Definition performRegister_resume (o : Settlement) : Handler unit :=
  match o with
  | Fulfilled =>
      navigate (LOGIN ROUTES) {| justRegistered := true |}
  | Thrown err =>
      (if isStatus403 err
       then setErrorMessage EXISTING_CREDENTIALS_ERROR
       else setErrorMessage GENERIC_SERVER_ERROR) ;;
      setIsValidCredentials false
  end.

(** [handleRegister] (lines 68-105); [r] is the render whose field
    values the handler closes over.  Each early [return] is the end of
    a [then] branch. *)
Definition handleRegister (r : State) : Handler unit :=
  preventDefault ;;
  setIsValidCredentials true ;;
  okEmail <- callRegexUtil EmailRule (email r) ;;
  if negb okEmail then
    setIsValidCredentials false ;;
    setErrorMessage INVALID_EMAIL_ERROR
  else
  okPhone <- callRegexUtil PhoneRule (phone r) ;;
  if negb okPhone then
    setIsValidCredentials false ;;
    setErrorMessage INVALID_PHONE_ERROR
  else
  okUsername <- callRegexUtil UsernameRule (username r) ;;
  if negb okUsername then
    setIsValidCredentials false ;;
    setErrorMessage
      (INVALID_USERNAME_ERROR ++ string_of_number MIN_USERNAME_LENGTH ++ ".")%string
  else
  okPassword <- callRegexUtil PasswordRule (password r) ;;
  if negb okPassword then
    setIsValidCredentials false ;;
    setErrorMessage
      (INVALID_PASSWORD_ERROR ++ string_of_number MIN_PASSWORD_LENGTH ++ ".")%string
  else
  performRegister r.

(** [handleGetStarted] (lines 54-65). *)
Definition handleGetStarted (r : State) : Handler unit :=
  if clickedGetStarted r then
    handleRegister r
  else
  filled <- isEmailBoxFilled ;;
  if filled then setclickedGetStarted true else ret tt.

(** ** Events

    What can happen to the mounted page: the DOM events the JSX wires
    to handlers (lines 159-215) and the settling of a pending post. *)
Inductive Event : Type :=
| EmailChange (v : string)        (* onChange of the email input *)
| EmailKeyDown (key : string)     (* onKeyDown of the email input *)
| GetStartedClick                 (* onClick of 'Get Started' *)
| PhoneChange (v : string)        (* onChange of the phone input *)
| PhoneKeyDown (key : string)     (* onKeyDown of the phone input *)
| UsernameChange (v : string)     (* onChange of the username input *)
| PasswordChange (v : string)     (* onChange of the password input *)
| SignUpClick                     (* onClick of a 'Sign Up' button *)
| PromiseSettled (i : nat) (o : Settlement).

(** The handler React runs for an event; handlers close over the hook
    values of the latest render. *)
Definition dispatch (ev : Event) : Handler unit :=
  fun p =>
    let r := hooks p in
    match ev with
    | EmailChange v => (inputEmailBox v ;; setEmail v) p
    | EmailKeyDown key =>
        if String.eqb key "Enter" then handleGetStarted r p else ret tt p
    | GetStartedClick => handleGetStarted r p
    | PhoneChange v => setPhone v p
    | PhoneKeyDown key =>
        if String.eqb key "Enter" then handleGetStarted r p else ret tt p
    | UsernameChange v => setUsername v p
    | PasswordChange v => setPassword v p
    | SignUpClick => handleRegister r p
    | PromiseSettled i o =>
        match nth_error (pending p) i with
        | Some _ => (settlePending i ;; performRegister_resume o) p
        | None => ret tt p
        end
    end.

Definition step (p : Page) (ev : Event) : Page := exec (dispatch ev) p.

Definition run (evs : list Event) (p : Page) : Page := fold_left step evs p.

(** *** What the render offers

    'Get Started' is rendered only while [!clickedGetStarted] (line
    174); the phone, username and password inputs and the visible
    'Sign Up' button are hidden until [clickedGetStarted] (lines 184,
    202); only a pending promise can settle. *)
Definition offered (p : Page) (ev : Event) : bool :=
  match ev with
  | EmailChange _ | EmailKeyDown _ => true
  | GetStartedClick => negb (clickedGetStarted (hooks p))
  | PhoneChange _ | PhoneKeyDown _ | UsernameChange _ | PasswordChange _
  | SignUpClick => clickedGetStarted (hooks p)
  | PromiseSettled i _ => Nat.ltb i (length (pending p))
  end.

(** Every event of [evs] is offered by the page it arrives at. *)
Fixpoint allOffered (evs : list Event) (p : Page) : bool :=
  match evs with
  | [] => true
  | ev :: rest => offered p ev && allOffered rest (step p ev)
  end.

(** The error paragraph (lines 219-223): [errorMessage] is always in
    the DOM and is hidden while [isValidCredentials]. *)
Definition shownError (p : Page) : option string :=
  if isValidCredentials (hooks p) then None else Some (errorMessage (hooks p)).

(** The [navigate] calls of a log, oldest first. *)
Fixpoint navigations (l : list Effect) : list (string * NavigateOptions) :=
  match l with
  | [] => []
  | Navigate to st :: t => (to, st) :: navigations t
  | _ :: t => navigations t
  end.

(** The number of [axios.post] calls of a log. *)
Fixpoint posts (l : list Effect) : nat :=
  match l with
  | [] => 0
  | AxiosPost _ _ :: t => S (posts t)
  | _ :: t => posts t
  end.

(** ** Vocabulary of the validation claims

    The order the specification gives to the rules, the field each rule
    reads and the message each rule reports; [handleRegister] above is
    compared with these. *)
Definition validationOrder : list Rule :=
  [EmailRule; PhoneRule; UsernameRule; PasswordRule].

Definition fieldOf (r : Rule) (s : State) : string :=
  match r with
  | EmailRule => email s
  | PhoneRule => phone s
  | UsernameRule => username s
  | PasswordRule => password s
  end.

Definition ruleMessage (r : Rule) : string :=
  match r with
  | EmailRule => INVALID_EMAIL_ERROR
  | PhoneRule => INVALID_PHONE_ERROR
  | UsernameRule =>
      (INVALID_USERNAME_ERROR ++ string_of_number MIN_USERNAME_LENGTH ++ ".")%string
  | PasswordRule =>
      (INVALID_PASSWORD_ERROR ++ string_of_number MIN_PASSWORD_LENGTH ++ ".")%string
  end.

Definition passes (s : State) (r : Rule) : bool := applyRule r (fieldOf r s).

Definition firstFailing (s : State) : option Rule :=
  find (fun r => negb (passes s r)) validationOrder.

Definition allPass (s : State) : bool := forallb (passes s) validationOrder.

(** The rules up to and including the first one that fails. *)
Fixpoint uptoFirstFailure (s : State) (rules : list Rule) : list Rule :=
  match rules with
  | [] => []
  | r :: rest => if passes s r then r :: uptoFirstFailure s rest else [r]
  end.

Definition bodyOf (s : State) : RegisterBody :=
  {| body_username := username s; body_email := email s;
     body_phone := phone s; body_password := password s |}.

(** The outcomes the specification lists for validation, and what each
    one means on the page after [handleRegister]. *)
Inductive Outcome : Type :=
| ProceedToSubmit | InvalidEmail | InvalidPhone | InvalidUsername | InvalidPassword.

Definition yields (p p' : Page) (o : Outcome) : Prop :=
  match o with
  | ProceedToSubmit =>
      shownError p' = None /\ pending p' = pending p ++ [bodyOf (hooks p)]
  | InvalidEmail =>
      shownError p' = Some (ruleMessage EmailRule) /\ pending p' = pending p
  | InvalidPhone =>
      shownError p' = Some (ruleMessage PhoneRule) /\ pending p' = pending p
  | InvalidUsername =>
      shownError p' = Some (ruleMessage UsernameRule) /\ pending p' = pending p
  | InvalidPassword =>
      shownError p' = Some (ruleMessage PasswordRule) /\ pending p' = pending p
  end.

(** A hook record after a rejection: only the validity flag and the
    message differ from [s]. *)
Definition rejectedWith (m : string) (s : State) : State :=
  {| email := email s; phone := phone s; password := password s;
     username := username s; isValidCredentials := false;
     clickedGetStarted := clickedGetStarted s; errorMessage := m |}.

(** The four credential fields and the setter and change event of
    each. *)
Inductive Field : Type := EmailField | PhoneField | UsernameField | PasswordField.

Definition fieldValue (f : Field) (s : State) : string :=
  match f with
  | EmailField => email s
  | PhoneField => phone s
  | UsernameField => username s
  | PasswordField => password s
  end.

Definition setField (f : Field) : string -> Handler unit :=
  match f with
  | EmailField => setEmail
  | PhoneField => setPhone
  | UsernameField => setUsername
  | PasswordField => setPassword
  end.

Definition changeEvent (f : Field) : string -> Event :=
  match f with
  | EmailField => EmailChange
  | PhoneField => PhoneChange
  | UsernameField => UsernameChange
  | PasswordField => PasswordChange
  end.

(** Everything of the page that is not a credential field value is the
    same in [p] and [p']. *)
Definition sameFlow (p p' : Page) : Prop :=
  clickedGetStarted (hooks p') = clickedGetStarted (hooks p) /\
  isValidCredentials (hooks p') = isValidCredentials (hooks p) /\
  errorMessage (hooks p') = errorMessage (hooks p) /\
  pending p' = pending p /\
  effects p' = effects p.

(** [ev] makes [handleRegister] run on page [p]. *)
Definition submits (p : Page) (ev : Event) : bool :=
  match ev with
  | SignUpClick => true
  | GetStartedClick => clickedGetStarted (hooks p)
  | EmailKeyDown key | PhoneKeyDown key =>
      String.eqb key "Enter" && clickedGetStarted (hooks p)
  | _ => false
  end.

(** [ev] is a submission attempt that fails on page [p]: a submit whose
    validation fails, or a pending post that throws. *)
Definition attemptFails (p : Page) (ev : Event) : bool :=
  match ev with
  | PromiseSettled i (Thrown _) => Nat.ltb i (length (pending p))
  | _ =>
      submits p ev &&
      match firstFailing (hooks p) with Some _ => true | None => false end
  end.

(** ** Vocabulary of the page-level invariants *)

(** The four checks of [handleRegister] on the fields of a POST body. *)
Definition validBody (b : RegisterBody) : bool :=
  isValidEmailFormat (body_email b) && isValidPhoneFormat (body_phone b)
  && isValidUsernameFormat (body_username b)
  && isValidPasswordFormat (body_password b).

(** A logged call is not a POST, or is a POST to [auth/register] of a
    body that passes the four checks. *)
Definition postValidated (e : Effect) : bool :=
  match e with
  | AxiosPost url b => String.eqb url "auth/register" && validBody b
  | _ => true
  end.

(** The one [navigate] call of the page (lines 119-123). *)
Definition loginNavigation : string * NavigateOptions :=
  (LOGIN ROUTES, {| justRegistered := true |}).

(** The messages the page can put into [errorMessage]. *)
Definition knownMessage (m : string) : Prop :=
  m = EXISTING_CREDENTIALS_ERROR \/ m = GENERIC_SERVER_ERROR \/
  exists r : Rule, m = ruleMessage r.

(** Nothing but the email has been touched: the detail fields are empty,
    no error is set, nothing was checked, posted or navigated. *)
Definition untouched (p : Page) : Prop :=
  phone (hooks p) = "" /\ username (hooks p) = "" /\ password (hooks p) = "" /\
  isValidCredentials (hooks p) = true /\
  errorMessage (hooks p) = EXISTING_CREDENTIALS_ERROR /\
  pending p = [] /\ effects p = [].

(** The shapes a single event can give to the page: a field edit (or
    nothing), the reveal of the detail fields, a rejected submit, a submit
    that posts, and a pending post that is fulfilled or throws. *)
Inductive Transition (p : Page) : Page -> Prop :=
| T_fields (p' : Page) :
    sameFlow p p' -> Transition p p'
| T_reveal :
    clickedGetStarted (hooks p) = false -> emailRef p <> "" ->
    Transition p
      {| hooks := withClickedGetStarted true (hooks p);
         emailRef := emailRef p; pending := pending p; effects := effects p |}
| T_rejected (r : Rule) :
    firstFailing (hooks p) = Some r ->
    Transition p
      {| hooks := rejectedWith (ruleMessage r) (hooks p);
         emailRef := emailRef p; pending := pending p;
         effects := effects p ++ PreventDefault ::
           map (fun q => RegexCall q (fieldOf q (hooks p)))
               (uptoFirstFailure (hooks p) validationOrder) |}
| T_posted :
    firstFailing (hooks p) = None ->
    Transition p
      {| hooks := withIsValidCredentials true (hooks p);
         emailRef := emailRef p;
         pending := pending p ++ [bodyOf (hooks p)];
         effects := effects p ++ PreventDefault ::
           map (fun q => RegexCall q (fieldOf q (hooks p))) validationOrder
           ++ [AxiosPost "auth/register" (bodyOf (hooks p))] |}
| T_navigated (i : nat) (b : RegisterBody) :
    nth_error (pending p) i = Some b ->
    Transition p
      {| hooks := hooks p; emailRef := emailRef p;
         pending := remove_nth i (pending p);
         effects := effects p ++ [Navigate (LOGIN ROUTES) {| justRegistered := true |}] |}
| T_thrown (i : nat) (b : RegisterBody) (err : AxiosError) :
    nth_error (pending p) i = Some b ->
    Transition p
      {| hooks := rejectedWith
                    (if isStatus403 err then EXISTING_CREDENTIALS_ERROR
                     else GENERIC_SERVER_ERROR) (hooks p);
         emailRef := emailRef p;
         pending := remove_nth i (pending p);
         effects := effects p |}.

End Register.

(** ** A sample configuration

    One instance of [RegexUtil] and [Routes], used for the concrete runs
    at the end; the properties themselves hold for every instance. *)

Definition isBlank (c : ascii) : bool :=
  let n := nat_of_ascii c in
  Nat.eqb n 32 || (Nat.leb 9 n && Nat.leb n 13).

Definition isDigit (c : ascii) : bool :=
  let n := nat_of_ascii c in Nat.leb 48 n && Nat.leb n 57.

Definition isPhoneSeparator (c : ascii) : bool :=
  existsb (Ascii.eqb c) (list_ascii_of_string " -.()+").

Fixpoint splitAtFirst (c : ascii) (l : list ascii)
  : option (list ascii * list ascii) :=
  match l with
  | [] => None
  | x :: t =>
      if Ascii.eqb x c then Some ([], t)
      else match splitAtFirst c t with
           | Some (a, b) => Some (x :: a, b)
           | None => None
           end
  end.

Definition plainPart (l : list ascii) : bool :=
  forallb (fun c => negb (isBlank c || Ascii.eqb c "@")) l.

Definition hasInnerDot (l : list ascii) : bool :=
  match l with
  | [] => false
  | _ :: t => existsb (Ascii.eqb ".") (removelast t)
  end.

(** Modelled from the spec: [RegexUtil.isValidEmailFormat], which is not
    part of the page.  A [local@domain.tld] shape: an [@], a non-empty
    local part, a domain with a dot-separated suffix; blanks and a second
    [@] are not part of the shape. *)
Definition sampleEmailFormat (s : string) : bool :=
  match splitAtFirst "@" (list_ascii_of_string s) with
  | None => false
  | Some (loc, dom) =>
      negb (Nat.eqb (length loc) 0) && plainPart loc && plainPart dom
      && hasInnerDot dom
  end.

(** Modelled from the spec: [RegexUtil.isValidPhoneFormat], which is not
    part of the page.  Digits with optional separators, parentheses and
    country code: ten to thirteen digits and nothing but digits and
    separators. *)
Definition samplePhoneFormat (s : string) : bool :=
  let cs := list_ascii_of_string s in
  let digits := length (filter isDigit cs) in
  forallb (fun c => isDigit c || isPhoneSeparator c) cs
  && Nat.leb 10 digits && Nat.leb digits 13.

(** Modelled from the spec: [RegexUtil.isValidUsernameFormat], which is
    not part of the page.  Non-empty, no whitespace, at least the
    configured minimum length. *)
Definition sampleUsernameFormat (min : nat) (s : string) : bool :=
  let cs := list_ascii_of_string s in
  negb (Nat.eqb (length cs) 0) && forallb (fun c => negb (isBlank c)) cs
  && Nat.leb min (length cs).

(** Modelled from the spec: [RegexUtil.isValidPasswordFormat], which is
    not part of the page.  At least the configured minimum length and
    nothing else. *)
Definition samplePasswordFormat (min : nat) (s : string) : bool :=
  Nat.leb min (String.length s).

(** Modelled from the spec: the [RegexUtil] object, with the two minimum
    lengths as configuration values. *)
Definition sampleRegexUtil (minUsername minPassword : nat) : RegexUtil :=
  {| isValidEmailFormat := sampleEmailFormat;
     isValidPhoneFormat := samplePhoneFormat;
     isValidUsernameFormat := sampleUsernameFormat minUsername;
     isValidPasswordFormat := samplePasswordFormat minPassword;
     MIN_USERNAME_LENGTH := minUsername;
     MIN_PASSWORD_LENGTH := minPassword |}.

(** Modelled from the spec: [ROUTES.LOGIN], the login destination; the
    page's own 'Sign In' link (line 144) points at [/login]. *)
Definition sampleRoutes : Routes := {| LOGIN := "/login" |}.

(** A page whose details are revealed and filled with well-formed
    values. *)
Definition filledState : State :=
  {| email := "user@example.com"; phone := "555-123-4567";
     password := "correct horse"; username := "validUser";
     isValidCredentials := true; clickedGetStarted := true;
     errorMessage := EXISTING_CREDENTIALS_ERROR |}.

Definition filledPage : Page :=
  {| hooks := filledState; emailRef := "user@example.com";
     pending := []; effects := [] |}.

(** Typing the same values into a fresh page. *)
Definition fillIn : list Event :=
  [EmailChange "user@example.com"; GetStartedClick;
   PhoneChange "555-123-4567"; UsernameChange "validUser";
   PasswordChange "correct horse"].

(** Two clicks on 'Sign Up' in a row on the filled page. *)
Definition doubleSubmit : list Event := fillIn ++ [SignUpClick; SignUpClick].

(** A rejected first attempt: a malformed email, everything else fine. *)
Definition badEmailState : State :=
  {| email := "user.example.com"; phone := "555-123-4567";
     password := "correct horse"; username := "validUser";
     isValidCredentials := true; clickedGetStarted := true;
     errorMessage := EXISTING_CREDENTIALS_ERROR |}.

Definition badEmailPage : Page :=
  {| hooks := badEmailState; emailRef := "user.example.com";
     pending := []; effects := [] |}.

(** The single-flight reading of the page: along every sequence of events
    the page offers, at most one post is pending. *)
Definition singleFlight : Prop :=
  forall (regexUtil : RegexUtil) (ROUTES : Routes) (evs : list Event),
    allOffered ROUTES evs initialPage = true ->
    length (pending (run ROUTES evs initialPage)) <= 1.

(** The gate reading: along every such sequence, 'Sign Up' is offered
    only while nothing is pending. *)
Definition submitGated : Prop :=
  forall (regexUtil : RegexUtil) (ROUTES : Routes) (evs : list Event),
    allOffered ROUTES evs initialPage = true ->
    offered (run ROUTES evs initialPage) SignUpClick = true ->
    pending (run ROUTES evs initialPage) = [].

(** The configuration used in the concrete runs below. *)
Definition sampleConfig : RegexUtil := sampleRegexUtil 3 8.

(** The malformed email is rejected, then corrected in the email box. *)
Definition correctedPage : Page :=
  run (regexUtil := sampleConfig) sampleRoutes
    [SignUpClick; EmailChange "user@example.com"] badEmailPage.

(** Typing a malformed email into a fresh page and submitting. *)
Definition badAttempt : list Event :=
  [EmailChange "user.example.com"; GetStartedClick;
   PhoneChange "555-123-4567"; UsernameChange "validUser";
   PasswordChange "correct horse"; SignUpClick].

(** A fresh page whose email box holds text. *)
Definition typedPage : Page :=
  run (regexUtil := sampleConfig) sampleRoutes
    [EmailChange "user@example.com"] initialPage.

(** * Properties *)

Section RegisterProperties.

Context {regexUtil : RegexUtil}.
Variable ROUTES : Routes.

Local Open Scope handler_scope.

(** Unfolds the handlers down to record expressions. *)
Ltac run_handler :=
  unfold step, dispatch, handleGetStarted, handleRegister, performRegister,
    performRegister_resume, callRegexUtil, applyRule, isEmailBoxFilled,
    settlePending,
    axios_post, navigate, preventDefault, inputEmailBox,
    setEmail, setPhone, setPassword, setUsername, setIsValidCredentials,
    setclickedGetStarted, setErrorMessage, setHooks, emit, exec, bind, ret;
  cbn [fst snd hooks emailRef pending effects].

(** ** The sample configuration on the specification's examples *)

Example sample_accepts_spec_examples :
  sampleEmailFormat "user@example.com" = true /\
  samplePhoneFormat "555-123-4567" = true /\
  samplePhoneFormat "(555) 123-4567" = true /\
  samplePhoneFormat "5551234567" = true /\
  sampleUsernameFormat 3 "validUser" = true /\
  sampleUsernameFormat 3 "ab cd" = false /\
  sampleEmailFormat "user.example.com" = false.
Proof. repeat split; reflexivity. Qed.

Example fillIn_reaches_filledPage :
  run (regexUtil := sampleConfig) sampleRoutes fillIn initialPage = filledPage
  /\ allOffered (regexUtil := sampleConfig) sampleRoutes fillIn initialPage = true.
Proof. split; reflexivity. Qed.

(** ** The result of [handleRegister], case by case *)

Lemma app_assoc_cons {A} (l : list A) (x : A) (t : list A) :
  (l ++ [x]) ++ t = l ++ x :: t.
Proof. rewrite <- app_assoc. reflexivity. Qed.

Lemma handleRegister_fails (p : Page) (r : Rule) :
  firstFailing (hooks p) = Some r ->
  exec (handleRegister (hooks p)) p =
    {| hooks := rejectedWith (ruleMessage r) (hooks p);
       emailRef := emailRef p;
       pending := pending p;
       effects := effects p ++ PreventDefault ::
         map (fun q => RegexCall q (fieldOf q (hooks p)))
             (uptoFirstFailure (hooks p) validationOrder) |}.
Proof.
  unfold firstFailing, validationOrder, passes. cbn [find uptoFirstFailure fieldOf applyRule].
  unfold passes. cbn [fieldOf applyRule].
  run_handler.
  destruct (isValidEmailFormat (email (hooks p)));
    [destruct (isValidPhoneFormat (phone (hooks p)));
     [destruct (isValidUsernameFormat (username (hooks p)));
      [destruct (isValidPasswordFormat (password (hooks p)))| ] | ] | ];
    cbn; intros E; inversion E; subst; clear E;
    cbn [map fieldOf]; rewrite ?app_assoc_cons; reflexivity.
Qed.

Lemma handleRegister_passes (p : Page) :
  firstFailing (hooks p) = None ->
  exec (handleRegister (hooks p)) p =
    {| hooks := withIsValidCredentials true (hooks p);
       emailRef := emailRef p;
       pending := pending p ++ [bodyOf (hooks p)];
       effects := effects p ++ PreventDefault ::
         map (fun q => RegexCall q (fieldOf q (hooks p))) validationOrder
         ++ [AxiosPost "auth/register" (bodyOf (hooks p))] |}.
Proof.
  unfold firstFailing, validationOrder, passes. cbn [find fieldOf applyRule].
  run_handler.
  destruct (isValidEmailFormat (email (hooks p)));
    [destruct (isValidPhoneFormat (phone (hooks p)));
     [destruct (isValidUsernameFormat (username (hooks p)));
      [destruct (isValidPasswordFormat (password (hooks p)))| ] | ] | ];
    cbn; intros E; try discriminate E;
    cbn [map fieldOf]; rewrite ?app_assoc_cons; reflexivity.
Qed.

(** ** Facts about the vocabulary *)

Lemma allPass_firstFailing (s : State) :
  allPass s = true <-> firstFailing s = None.
Proof.
  unfold allPass, firstFailing, validationOrder. cbn [forallb find].
  destruct (passes s EmailRule), (passes s PhoneRule),
    (passes s UsernameRule), (passes s PasswordRule); cbn;
    split; intros H; first [reflexivity | discriminate H].
Qed.

Lemma uptoFirstFailure_all (s : State) :
  firstFailing s = None -> uptoFirstFailure s validationOrder = validationOrder.
Proof.
  unfold firstFailing, validationOrder. cbn [find uptoFirstFailure].
  destruct (passes s EmailRule), (passes s PhoneRule),
    (passes s UsernameRule), (passes s PasswordRule); cbn;
    intros H; first [reflexivity | discriminate H].
Qed.

Lemma firstFailing_email (s : State) :
  isValidEmailFormat (email s) = false ->
  firstFailing s = Some EmailRule /\
  uptoFirstFailure s validationOrder = [EmailRule].
Proof.
  intros H. unfold firstFailing, validationOrder, passes.
  cbn [find uptoFirstFailure fieldOf applyRule]. unfold passes.
  cbn [fieldOf applyRule]. rewrite H. split; reflexivity.
Qed.

(** The four validation messages are pairwise different, whatever the
    configured minimum lengths. *)
Lemma ruleMessage_inj (r1 r2 : Rule) :
  ruleMessage r1 = ruleMessage r2 -> r1 = r2.
Proof.
  destruct r1, r2; cbn; intros H; first [reflexivity | discriminate H].
Qed.

Lemma nth_error_snoc {A} (l : list A) (x : A) :
  nth_error (l ++ [x]) (length l) = Some x.
Proof. induction l as [|y l IH]; cbn; [reflexivity | exact IH]. Qed.

Lemma remove_nth_snoc {A} (l : list A) (x : A) :
  remove_nth (length l) (l ++ [x]) = l.
Proof. induction l as [|y l IH]; cbn; [reflexivity | now rewrite IH]. Qed.

Lemma navigations_app (l l' : list Effect) :
  navigations (l ++ l') = navigations l ++ navigations l'.
Proof.
  induction l as [|e l IH]; cbn; [reflexivity|].
  destruct e; cbn; rewrite IH; reflexivity.
Qed.

Lemma navigations_regexCalls (f : Rule -> string) (l : list Rule) :
  navigations (map (fun q => RegexCall q (f q)) l) = [].
Proof. induction l as [|q l IH]; cbn; [reflexivity | exact IH]. Qed.

Lemma navigations_handleRegister (p : Page) :
  navigations (effects (exec (handleRegister (hooks p)) p))
  = navigations (effects p).
Proof.
  destruct (firstFailing (hooks p)) as [r|] eqn:E.
  - rewrite (handleRegister_fails p r E). cbn [effects].
    rewrite navigations_app. cbn [navigations].
    rewrite navigations_regexCalls. apply app_nil_r.
  - rewrite (handleRegister_passes p E). cbn [effects].
    rewrite navigations_app. cbn [navigations].
    rewrite navigations_app, navigations_regexCalls. apply app_nil_r.
Qed.

(** ** Validation order *)

(** C1: [handleRegister] evaluates the rules in the order email, phone,
    username, password and stops at the first one that fails: the
    [RegexUtil] calls it makes are exactly the rules up to and including
    the first failing one, in that order, and the error shown is that
    rule's message (none when all pass, and then the POST follows).  In
    particular, when the email rule fails the page shows the
    invalid-email message whatever the other three fields hold, and the
    email check is the only [RegexUtil] call made. *)
Theorem handleRegister_stops_at_first_failing_rule (p : Page) :
  let s := hooks p in
  let p' := exec (handleRegister s) p in
  effects p' =
    effects p ++ PreventDefault ::
      map (fun q => RegexCall q (fieldOf q s))
          (uptoFirstFailure s validationOrder)
      ++ match firstFailing s with
         | Some _ => []
         | None => [AxiosPost "auth/register" (bodyOf s)]
         end
  /\ shownError p' = option_map ruleMessage (firstFailing s)
  /\ (isValidEmailFormat (email s) = false ->
      shownError p' = Some INVALID_EMAIL_ERROR /\
      effects p' = effects p ++ [PreventDefault; RegexCall EmailRule (email s)]).
Proof.
  intros s p'. subst s p'.
  assert (G : effects (exec (handleRegister (hooks p)) p) =
    effects p ++ PreventDefault ::
      map (fun q => RegexCall q (fieldOf q (hooks p)))
          (uptoFirstFailure (hooks p) validationOrder)
      ++ match firstFailing (hooks p) with
         | Some _ => []
         | None => [AxiosPost "auth/register" (bodyOf (hooks p))]
         end
    /\ shownError (exec (handleRegister (hooks p)) p)
       = option_map ruleMessage (firstFailing (hooks p))).
  { destruct (firstFailing (hooks p)) as [r|] eqn:E.
    - rewrite (handleRegister_fails p r E). cbn [effects option_map].
      rewrite app_nil_r. split; reflexivity.
    - rewrite (handleRegister_passes p E). cbn [effects option_map].
      rewrite (uptoFirstFailure_all _ E). split; reflexivity. }
  destruct G as [G1 G2]. split; [exact G1 | split; [exact G2 |]].
  intros H. destruct (firstFailing_email (hooks p) H) as [F U].
  rewrite G1, G2, F, U. split; reflexivity.
Qed.

(** C7: validation is total and exclusive: after [handleRegister] the
    page is in exactly one of the five outcomes (the POST was issued and
    no error is shown, or nothing was issued and the message of one of
    the four rules is shown). *)
Theorem validation_total_and_exclusive (p : Page) :
  exists! o : Outcome, yields p (exec (handleRegister (hooks p)) p) o.
Proof.
  destruct (firstFailing (hooks p)) as [r|] eqn:E.
  - pose proof (handleRegister_fails p r E) as R.
    exists (match r with
            | EmailRule => InvalidEmail | PhoneRule => InvalidPhone
            | UsernameRule => InvalidUsername | PasswordRule => InvalidPassword
            end).
    split.
    + rewrite R. destruct r; split; reflexivity.
    + rewrite R. intros o Y.
      destruct o; destruct Y as [Y1 Y2]; unfold shownError in Y1;
        cbn [hooks pending rejectedWith isValidCredentials errorMessage] in Y1, Y2;
        try discriminate Y1;
        injection Y1 as Y1;
        first [ apply (ruleMessage_inj r EmailRule) in Y1
              | apply (ruleMessage_inj r PhoneRule) in Y1
              | apply (ruleMessage_inj r UsernameRule) in Y1
              | apply (ruleMessage_inj r PasswordRule) in Y1 ];
        subst r; reflexivity.
  - pose proof (handleRegister_passes p E) as R.
    exists ProceedToSubmit. split.
    + rewrite R. split; reflexivity.
    + rewrite R. intros o Y. destruct o; [reflexivity | | | |];
        destruct Y as [Y1 _]; discriminate Y1.
Qed.

(** ** Submission and the server's answer *)

(** The page right after a submit whose validation passed. *)
Lemma signUp_passes (p : Page) :
  allPass (hooks p) = true ->
  step ROUTES p SignUpClick =
    {| hooks := withIsValidCredentials true (hooks p);
       emailRef := emailRef p;
       pending := pending p ++ [bodyOf (hooks p)];
       effects := effects p ++ PreventDefault ::
         map (fun q => RegexCall q (fieldOf q (hooks p))) validationOrder
         ++ [AxiosPost "auth/register" (bodyOf (hooks p))] |}.
Proof.
  intros H. apply allPass_firstFailing in H.
  unfold step, dispatch. fold (exec (handleRegister (hooks p)) p).
  exact (handleRegister_passes p H).
Qed.

(** Settling a pending post removes it and resumes [performRegister]. *)
Lemma step_settled (p : Page) (i : nat) (o : Settlement) (b : RegisterBody) :
  nth_error (pending p) i = Some b ->
  step ROUTES p (PromiseSettled i o) =
    exec (performRegister_resume ROUTES o)
      {| hooks := hooks p; emailRef := emailRef p;
         pending := remove_nth i (pending p); effects := effects p |}.
Proof.
  intros H. unfold step, dispatch, exec. rewrite H. reflexivity.
Qed.

Lemma resume_thrown (p : Page) (err : AxiosError) :
  exec (performRegister_resume ROUTES (Thrown err)) p =
    {| hooks := rejectedWith
                  (if isStatus403 err then EXISTING_CREDENTIALS_ERROR
                   else GENERIC_SERVER_ERROR) (hooks p);
       emailRef := emailRef p; pending := pending p; effects := effects p |}.
Proof. run_handler. destruct (isStatus403 err); reflexivity. Qed.

Lemma isStatus403_false (err : AxiosError) :
  (forall r, response err = Some r -> status r <> 403%Z) ->
  isStatus403 err = false.
Proof.
  intros H. unfold isStatus403. destruct (response err) as [r|]; [|reflexivity].
  apply Z.eqb_neq. apply H. reflexivity.
Qed.

(** A submit that passes validation, followed by the settling of the
    post it issued. *)
Lemma submit_then_settle (p : Page) (o : Settlement) :
  allPass (hooks p) = true ->
  step ROUTES (step ROUTES p SignUpClick)
       (PromiseSettled (length (pending p)) o) =
    exec (performRegister_resume ROUTES o)
      {| hooks := withIsValidCredentials true (hooks p);
         emailRef := emailRef p;
         pending := pending p;
         effects := effects (step ROUTES p SignUpClick) |}.
Proof.
  intros H.
  rewrite (step_settled _ _ _ (bodyOf (hooks p)));
    rewrite (signUp_passes p H); cbn [hooks emailRef pending effects].
  - rewrite remove_nth_snoc. reflexivity.
  - apply nth_error_snoc.
Qed.

Lemma navigations_signUp (p : Page) :
  navigations (effects (step ROUTES p SignUpClick)) = navigations (effects p).
Proof. exact (navigations_handleRegister p). Qed.

(** C2: when the four rules pass on the current field values and the
    post is fulfilled, the submission makes exactly one [navigate] call,
    to [ROUTES.LOGIN] with state [{ justRegistered: true }]: the submit
    itself navigates nowhere, and the settled promise adds that one
    call to the log and nothing else. *)
Theorem register_success_navigates_to_login (p : Page) :
  allPass (hooks p) = true ->
  let p1 := step ROUTES p SignUpClick in
  let p2 := step ROUTES p1 (PromiseSettled (length (pending p)) Fulfilled) in
  pending p1 = pending p ++ [bodyOf (hooks p)] /\
  navigations (effects p1) = navigations (effects p) /\
  effects p2 =
    effects p1 ++ [Navigate (LOGIN ROUTES) {| justRegistered := true |}] /\
  navigations (effects p2) =
    navigations (effects p) ++ [(LOGIN ROUTES, {| justRegistered := true |})] /\
  pending p2 = pending p /\
  shownError p2 = None.
Proof.
  intros H p1 p2.
  assert (S2 : p2 = exec (performRegister_resume ROUTES Fulfilled)
                 {| hooks := withIsValidCredentials true (hooks p);
                    emailRef := emailRef p; pending := pending p;
                    effects := effects p1 |})
    by exact (submit_then_settle p Fulfilled H).
  revert S2. run_handler. intros S2.
  pose proof (navigations_signUp p) as N1. fold p1 in N1.
  split; [|split; [|split; [|split; [|split]]]].
  - subst p1. rewrite (signUp_passes p H). reflexivity.
  - exact N1.
  - rewrite S2. reflexivity.
  - rewrite S2. cbn [effects]. rewrite navigations_app, N1. reflexivity.
  - rewrite S2. reflexivity.
  - rewrite S2. reflexivity.
Qed.

(** C3: when the four rules pass and the post is rejected with status
    403, the page shows the existing-credentials message and the
    submission makes no [navigate] call. *)
Theorem register_conflict_shows_existing_credentials (p : Page) :
  allPass (hooks p) = true ->
  let conflict := Thrown {| response := Some {| status := 403 |} |} in
  let p1 := step ROUTES p SignUpClick in
  let p2 := step ROUTES p1 (PromiseSettled (length (pending p)) conflict) in
  shownError p2 = Some EXISTING_CREDENTIALS_ERROR /\
  navigations (effects p2) = navigations (effects p) /\
  effects p2 = effects p1 /\
  pending p2 = pending p.
Proof.
  intros H conflict p1 p2. subst p2 conflict.
  rewrite (submit_then_settle p _ H), resume_thrown. fold p1.
  cbn [effects pending isStatus403 response status Z.eqb Pos.eqb].
  repeat split. subst p1. apply navigations_signUp.
Qed.

(** C4: when the four rules pass and the post is rejected with anything
    but status 403 (another status code, or an error that carries no
    response at all, as for a network failure or a timeout), the page
    shows the generic server error. *)
Theorem register_other_failure_shows_generic_error
    (p : Page) (err : AxiosError) :
  allPass (hooks p) = true ->
  (forall r, response err = Some r -> status r <> 403%Z) ->
  let p1 := step ROUTES p SignUpClick in
  let p2 := step ROUTES p1 (PromiseSettled (length (pending p)) (Thrown err)) in
  shownError p2 = Some GENERIC_SERVER_ERROR /\
  navigations (effects p2) = navigations (effects p) /\
  effects p2 = effects p1 /\
  pending p2 = pending p.
Proof.
  intros H Herr p1 p2. subst p2.
  rewrite (submit_then_settle p _ H), resume_thrown. fold p1.
  rewrite (isStatus403_false err Herr). cbn [effects pending].
  repeat split. subst p1. apply navigations_signUp.
Qed.

(** ** What one event does to the validity flag *)

Lemma step_submits (p : Page) (ev : Event) :
  submits p ev = true ->
  step ROUTES p ev = exec (handleRegister (hooks p)) p.
Proof.
  unfold step, exec, dispatch, handleGetStarted, submits. cbv beta zeta.
  destruct ev as [v|key| |v|key|v|v| |i o]; try discriminate;
    try (destruct (String.eqb key "Enter"); cbn [andb]; try discriminate);
    intros H; try rewrite H; reflexivity.
Qed.

(** Every event is a submit, a pending post that throws, or leaves the
    validity flag and the message alone. *)
Lemma handleGetStarted_reveals (p : Page) :
  clickedGetStarted (hooks p) = false ->
  exec (handleGetStarted (hooks p)) p =
    if Nat.ltb 0 (String.length (emailRef p))
    then {| hooks := withClickedGetStarted true (hooks p);
            emailRef := emailRef p; pending := pending p;
            effects := effects p |}
    else p.
Proof.
  intros H. run_handler. rewrite H.
  destruct (Nat.ltb 0 (String.length (emailRef p))); reflexivity.
Qed.

(** A key press or click that does not submit leaves the page as it is
    or reveals the detail fields. *)
Lemma step_getStarted_cases (p : Page) (ev : Event) :
  submits p ev = false ->
  match ev with
  | EmailKeyDown _ | PhoneKeyDown _ | GetStartedClick =>
      step ROUTES p ev = p \/
      step ROUTES p ev =
        {| hooks := withClickedGetStarted true (hooks p);
           emailRef := emailRef p; pending := pending p;
           effects := effects p |}
  | _ => True
  end.
Proof.
  assert (G : clickedGetStarted (hooks p) = false ->
    exec (handleGetStarted (hooks p)) p = p \/
    exec (handleGetStarted (hooks p)) p =
      {| hooks := withClickedGetStarted true (hooks p);
         emailRef := emailRef p; pending := pending p;
         effects := effects p |}).
  { intros C. rewrite (handleGetStarted_reveals p C).
    destruct (Nat.ltb 0 (String.length (emailRef p))); auto. }
  destruct ev as [v|key| |v|key|v|v| |i o]; cbn [submits]; intros S;
    try exact I; unfold step, dispatch, exec; cbv beta zeta;
    try (destruct (String.eqb key "Enter"); cbn [andb] in S; [|left; reflexivity]);
    apply G; exact S.
Qed.

Lemma step_validity (p : Page) (ev : Event) :
  (submits p ev = true /\
   step ROUTES p ev = exec (handleRegister (hooks p)) p)
  \/ (submits p ev = false /\ attemptFails p ev = true /\
      exists m, hooks (step ROUTES p ev) = rejectedWith m (hooks p))
  \/ (submits p ev = false /\ attemptFails p ev = false /\
      isValidCredentials (hooks (step ROUTES p ev)) = isValidCredentials (hooks p) /\
      errorMessage (hooks (step ROUTES p ev)) = errorMessage (hooks p)).
Proof.
  destruct (submits p ev) eqn:S.
  { left. split; [reflexivity | apply step_submits; exact S]. }
  right.
  assert (G : forall q : Page,
    q = exec (handleGetStarted (hooks p)) p ->
    clickedGetStarted (hooks p) = false ->
    isValidCredentials (hooks q) = isValidCredentials (hooks p) /\
    errorMessage (hooks q) = errorMessage (hooks p)).
  { intros q -> C. rewrite (handleGetStarted_reveals p C).
    destruct (Nat.ltb 0 (String.length (emailRef p))); split; reflexivity. }
  destruct ev as [v|key| |v|key|v|v| |i o]; cbn [submits] in S;
    try discriminate S; unfold attemptFails; cbn [submits];
    try rewrite S; cbn [andb].
  - right. repeat split.
  - right. split; [reflexivity|]. split; [reflexivity|].
    unfold step, dispatch.
    destruct (String.eqb key "Enter"); cbn [andb] in S.
    + apply G; [reflexivity | exact S].
    + split; reflexivity.
  - right. split; [reflexivity|]. split; [reflexivity|].
    apply G; [reflexivity | exact S].
  - right. repeat split.
  - right. split; [reflexivity|]. split; [reflexivity|].
    unfold step, dispatch.
    destruct (String.eqb key "Enter"); cbn [andb] in S.
    + apply G; [reflexivity | exact S].
    + split; reflexivity.
  - right. repeat split.
  - right. repeat split.
  - destruct o as [|err].
    + right. split; [reflexivity|]. split; [reflexivity|].
      unfold step, dispatch, exec.
      destruct (nth_error (pending p) i); split; reflexivity.
    + destruct (Nat.ltb i (length (pending p))) eqn:L.
      * left. split; [reflexivity|]. split; [reflexivity|].
        apply Nat.ltb_lt in L.
        destruct (nth_error (pending p) i) as [b|] eqn:N.
        -- rewrite (step_settled p i _ b N), resume_thrown.
           eexists. reflexivity.
        -- apply nth_error_None in N. lia.
      * right. apply Nat.ltb_ge in L. apply nth_error_None in L.
        split; [reflexivity|]. split; [reflexivity|].
        unfold step, dispatch, exec; rewrite L; split; reflexivity.
Qed.

(** ** Outstanding requests *)

Lemma posts_app (l l' : list Effect) : posts (l ++ l') = posts l + posts l'.
Proof.
  induction l as [|e l IH]; cbn; [reflexivity|].
  destruct e; cbn; rewrite IH; reflexivity.
Qed.

Lemma posts_regexCalls (f : Rule -> string) (l : list Rule) :
  posts (map (fun q => RegexCall q (f q)) l) = 0.
Proof. induction l as [|q l IH]; cbn; [reflexivity | exact IH]. Qed.

Lemma length_remove_nth {A} (i : nat) (l : list A) :
  length (remove_nth i l) <= length l.
Proof.
  revert i. induction l as [|x l IH]; intros [|i]; cbn [remove_nth length];
    try lia.
  specialize (IH i). lia.
Qed.

(** What [handleRegister] does to the pending posts and to the log. *)
Lemma handleRegister_pending (p : Page) :
  let p' := exec (handleRegister (hooks p)) p in
  length (pending p') = length (pending p) + (if allPass (hooks p) then 1 else 0)
  /\ posts (effects p') = posts (effects p) + (if allPass (hooks p) then 1 else 0).
Proof.
  intros p'. subst p'.
  destruct (firstFailing (hooks p)) as [r|] eqn:E.
  - assert (A : allPass (hooks p) = false).
    { destruct (allPass (hooks p)) eqn:A; [|reflexivity].
      apply allPass_firstFailing in A. congruence. }
    rewrite (handleRegister_fails p r E), A. cbn [pending effects].
    rewrite posts_app. cbn [posts]. rewrite posts_regexCalls. lia.
  - rewrite (handleRegister_passes p E).
    rewrite (proj2 (allPass_firstFailing _) E). cbn [pending effects].
    rewrite length_app, !posts_app. cbn [posts length].
    rewrite posts_app, posts_regexCalls. cbn. lia.
Qed.

(** One event keeps the pending posts within the posts issued. *)
Lemma step_pending_le_posts (p : Page) (ev : Event) :
  length (pending p) <= posts (effects p) ->
  length (pending (step ROUTES p ev)) <= posts (effects (step ROUTES p ev)).
Proof.
  intros I.
  destruct (submits p ev) eqn:S.
  { rewrite (step_submits p ev S).
    destruct (handleRegister_pending p) as [L P]. rewrite L, P. lia. }
  destruct ev as [v|key| |v|key|v|v| |i o]; cbn [submits] in S;
    try discriminate S; try exact I.
  - destruct (step_getStarted_cases p (EmailKeyDown key) S) as [-> | ->]; exact I.
  - destruct (step_getStarted_cases p GetStartedClick S) as [-> | ->]; exact I.
  - destruct (step_getStarted_cases p (PhoneKeyDown key) S) as [-> | ->]; exact I.
  - destruct (nth_error (pending p) i) as [b|] eqn:N.
    + rewrite (step_settled p i o b N).
      pose proof (length_remove_nth i (pending p)) as R.
      destruct o as [|err].
      * run_handler. rewrite posts_app. lia.
      * rewrite resume_thrown. cbn [pending effects]. lia.
    + unfold step, dispatch, exec. rewrite N. exact I.
Qed.

(** Two submits in a row on a page whose fields pass leave two more posts
    pending, whatever [RegexUtil] is. *)
Lemma two_submits_two_pending (p : Page) :
  allPass (hooks p) = true ->
  length (pending (step ROUTES (step ROUTES p SignUpClick) SignUpClick))
  = length (pending p) + 2.
Proof.
  intros A.
  pose proof (handleRegister_pending (step ROUTES p SignUpClick)) as [L _].
  change (exec (handleRegister (hooks (step ROUTES p SignUpClick)))
            (step ROUTES p SignUpClick))
    with (step ROUTES (step ROUTES p SignUpClick) SignUpClick) in L.
  rewrite L. clear L. rewrite (signUp_passes p A). cbn [hooks pending].
  change (allPass (withIsValidCredentials true (hooks p)))
    with (allPass (hooks p)).
  rewrite A, length_app. cbn. lia.
Qed.

Lemma run_snoc (evs : list Event) (ev : Event) (p : Page) :
  run ROUTES (evs ++ [ev]) p = step ROUTES (run ROUTES evs p) ev.
Proof. unfold run. rewrite fold_left_app. reflexivity. Qed.

(** C5 (as amended): the page has no submitting gate.  In every state
    reached from the initial page the pending posts are at most the posts
    issued so far (not at most one); 'Sign Up' is offered whenever the
    detail fields are revealed, whatever is pending; and a submit adds
    exactly one pending post when the four rules pass and none
    otherwise. *)
Theorem pending_posts_not_gated (evs : list Event) :
  let p := run ROUTES evs initialPage in
  length (pending p) <= posts (effects p) /\
  offered p SignUpClick = clickedGetStarted (hooks p) /\
  length (pending (step ROUTES p SignUpClick))
    = length (pending p) + (if allPass (hooks p) then 1 else 0).
Proof.
  intros p. split; [|split].
  - subst p. induction evs as [|ev evs IH] using rev_ind.
    + cbn. lia.
    + rewrite run_snoc. apply step_pending_le_posts. exact IH.
  - reflexivity.
  - exact (proj1 (handleRegister_pending p)).
Qed.

(** ** Get Started *)

Lemma string_length_pos (s : string) :
  Nat.ltb 0 (String.length s) = true <-> s <> "".
Proof.
  destruct s; cbn; split; intros H; congruence.
Qed.

(** One event keeps the email hook equal to the text of the email box. *)
Lemma step_emailRef (p : Page) (ev : Event) :
  emailRef p = email (hooks p) ->
  emailRef (step ROUTES p ev) = email (hooks (step ROUTES p ev)).
Proof.
  intros I.
  destruct (submits p ev) eqn:S.
  { rewrite (step_submits p ev S).
    destruct (firstFailing (hooks p)) as [r|] eqn:E.
    - rewrite (handleRegister_fails p r E). exact I.
    - rewrite (handleRegister_passes p E). exact I. }
  destruct ev as [v|key| |v|key|v|v| |i o]; cbn [submits] in S;
    try discriminate S; try exact I; try reflexivity.
  - destruct (step_getStarted_cases p (EmailKeyDown key) S) as [-> | ->]; exact I.
  - destruct (step_getStarted_cases p GetStartedClick S) as [-> | ->]; exact I.
  - destruct (step_getStarted_cases p (PhoneKeyDown key) S) as [-> | ->]; exact I.
  - destruct (nth_error (pending p) i) as [b|] eqn:N.
    + rewrite (step_settled p i o b N). destruct o as [|err].
      * exact I.
      * rewrite resume_thrown. exact I.
    + unfold step, dispatch, exec. rewrite N. exact I.
Qed.

(** C6: [handleGetStarted] reveals the detail fields exactly when the
    email box is non-empty: with the fields not yet revealed it sets
    [clickedGetStarted] (and nothing else) if the box holds text and
    leaves the page as it is if the box is empty; with the fields already
    revealed it is [handleRegister].  In every state reached from the
    initial page the text of the box is the email field value. *)
Theorem handleGetStarted_advances (p : Page) :
  let s := hooks p in
  let p' := exec (handleGetStarted s) p in
  (clickedGetStarted s = false ->
     (clickedGetStarted (hooks p') = true <-> emailRef p <> "") /\
     (emailRef p = "" -> p' = p) /\
     (emailRef p <> "" ->
        p' = {| hooks := withClickedGetStarted true s; emailRef := emailRef p;
                pending := pending p; effects := effects p |}))
  /\ (clickedGetStarted s = true -> handleGetStarted s = handleRegister s)
  /\ (forall evs : list Event,
        emailRef (run ROUTES evs initialPage)
        = email (hooks (run ROUTES evs initialPage))).
Proof.
  intros s p'. subst s p'. split; [|split].
  - intros C. rewrite (handleGetStarted_reveals p C).
    destruct (Nat.ltb 0 (String.length (emailRef p))) eqn:L.
    + apply string_length_pos in L. repeat split; auto. contradiction.
    + assert (N : emailRef p = "").
      { destruct (emailRef p); [reflexivity | discriminate L]. }
      split; [|split].
      * rewrite C, N. split; [discriminate | congruence].
      * reflexivity.
      * intros H. contradiction.
  - intros C. unfold handleGetStarted. rewrite C. reflexivity.
  - intros evs. induction evs as [|ev evs IH] using rev_ind.
    + reflexivity.
    + rewrite run_snoc. apply step_emailRef. exact IH.
Qed.

(** ** Field setters *)

Lemma shownError_handleRegister (p : Page) :
  shownError (exec (handleRegister (hooks p)) p)
  = option_map ruleMessage (firstFailing (hooks p)).
Proof.
  destruct (firstFailing (hooks p)) as [r|] eqn:E.
  - rewrite (handleRegister_fails p r E). reflexivity.
  - rewrite (handleRegister_passes p E). reflexivity.
Qed.

(** An event that hides a shown error is a submit that passes validation. *)
Lemma error_hidden_only_by_submit (p : Page) (ev : Event) (m : string) :
  shownError p = Some m ->
  shownError (step ROUTES p ev) = None ->
  submits p ev = true /\ allPass (hooks p) = true.
Proof.
  intros Shown Hidden.
  destruct (step_validity p ev) as [[S E] | [[S [A [m' R]]] | [S [A [V M]]]]].
  - split; [exact S|]. rewrite E, shownError_handleRegister in Hidden.
    apply allPass_firstFailing.
    destruct (firstFailing (hooks p)); [discriminate Hidden | reflexivity].
  - unfold shownError in Hidden. rewrite R in Hidden. discriminate Hidden.
  - unfold shownError in Shown, Hidden. rewrite V in Hidden.
    destruct (isValidCredentials (hooks p)); congruence.
Qed.

(** C8: each field setter writes its own field and nothing else: the
    other three fields, the get-started flag, the validity flag, the
    message, the pending posts and the log are as before, so the error
    shown is as before; setting the same value twice is the same as
    setting it once.  The same holds for the [onChange] event of each
    field.  A shown error is hidden only by an event that runs
    [handleRegister] (and then only when the four rules pass), whose
    first hook update is [setIsValidCredentials(true)]. *)
Theorem field_setters_change_only_their_field
    (f : Field) (v : string) (p : Page) :
  let p1 := exec (setField f v) p in
  let p2 := step ROUTES p (changeEvent f v) in
  fieldValue f (hooks p1) = v /\
  (forall g : Field, g <> f -> fieldValue g (hooks p1) = fieldValue g (hooks p)) /\
  sameFlow p p1 /\
  shownError p1 = shownError p /\
  exec (setField f v) p1 = p1 /\
  hooks p2 = hooks p1 /\
  sameFlow p p2 /\
  step ROUTES p2 (changeEvent f v) = p2 /\
  (forall (ev : Event) (m : string),
     shownError p = Some m -> shownError (step ROUTES p ev) = None ->
     submits p ev = true /\ allPass (hooks p) = true) /\
  (forall r : State,
     exists rest : Handler unit,
       handleRegister r = (preventDefault ;; setIsValidCredentials true ;; rest)
       /\ shownError (exec (preventDefault ;; setIsValidCredentials true) p) = None).
Proof.
  intros p1 p2. subst p1 p2.
  repeat match goal with |- _ /\ _ => split end.
  - destruct f; reflexivity.
  - intros g G. destruct f, g; first [reflexivity | contradiction].
  - destruct f; repeat split.
  - destruct f; reflexivity.
  - destruct f; reflexivity.
  - destruct f; reflexivity.
  - destruct f; repeat split.
  - destruct f; reflexivity.
  - intros ev m. apply error_hidden_only_by_submit.
  - intros r. eexists. split; reflexivity.
Qed.

(** ** Rejected submissions *)

Lemma rejectedWith_frame (m : string) (s : State) :
  let s' := rejectedWith m s in
  email s' = email s /\ phone s' = phone s /\ username s' = username s /\
  password s' = password s /\ clickedGetStarted s' = clickedGetStarted s.
Proof. repeat split. Qed.

(** C9: a submission that ends rejected changes only the validity flag
    and the message.  When a rule fails, the hooks after the submit are
    those before it with the flag cleared and that rule's message; when
    the rules pass and the post throws (status 403 or anything else), the
    hooks after the settlement are those before the submit with the flag
    cleared and the server message; any pending post that throws does the
    same to the hooks of its time.  The four field values, the
    get-started flag and the email box are the same throughout. *)
Theorem rejected_submission_keeps_fields (p : Page) (err : AxiosError) :
  let s := hooks p in
  let serverMessage :=
    if isStatus403 err then EXISTING_CREDENTIALS_ERROR else GENERIC_SERVER_ERROR in
  (forall r : Rule, firstFailing s = Some r ->
     let p' := step ROUTES p SignUpClick in
     hooks p' = rejectedWith (ruleMessage r) s /\ emailRef p' = emailRef p)
  /\ (allPass s = true ->
      let p1 := step ROUTES p SignUpClick in
      let p2 := step ROUTES p1 (PromiseSettled (length (pending p)) (Thrown err)) in
      hooks p2 = rejectedWith serverMessage s /\ emailRef p2 = emailRef p)
  /\ (forall i : nat, i < length (pending p) ->
      let p' := step ROUTES p (PromiseSettled i (Thrown err)) in
      hooks p' = rejectedWith serverMessage s /\ emailRef p' = emailRef p)
  /\ (forall m : string,
      let s' := rejectedWith m s in
      email s' = email s /\ phone s' = phone s /\ username s' = username s /\
      password s' = password s /\ clickedGetStarted s' = clickedGetStarted s).
Proof.
  intros s serverMessage. subst s serverMessage.
  split; [|split; [|split]].
  - intros r E p'. subst p'.
    change (step ROUTES p SignUpClick) with (exec (handleRegister (hooks p)) p).
    rewrite (handleRegister_fails p r E). split; reflexivity.
  - intros A p1 p2. subst p1 p2.
    rewrite (submit_then_settle p _ A), resume_thrown. split; reflexivity.
  - intros i L p'. subst p'.
    destruct (nth_error (pending p) i) as [b|] eqn:N.
    + rewrite (step_settled p i _ b N), resume_thrown. split; reflexivity.
    + apply nth_error_None in N. lia.
  - intros m. apply rejectedWith_frame.
Qed.

(** ** When an error is shown *)

Lemma attemptFails_submit (p : Page) (ev : Event) :
  submits p ev = true ->
  attemptFails p ev =
    match firstFailing (hooks p) with Some _ => true | None => false end.
Proof.
  destruct ev as [v|key| |v|key|v|v| |i o]; cbn [submits]; intros S;
    try discriminate S; unfold attemptFails; cbn [submits];
    try rewrite S; reflexivity.
Qed.

(** An event that leaves an error shown is a failed attempt, or the error
    was shown before it. *)
Lemma error_shown_step (p : Page) (ev : Event) (m : string) :
  shownError (step ROUTES p ev) = Some m ->
  attemptFails p ev = true \/ exists m', shownError p = Some m'.
Proof.
  intros Shown.
  destruct (step_validity p ev) as [[S E] | [[S [A _]] | [S [A [V M]]]]].
  - left. rewrite (attemptFails_submit p ev S).
    rewrite E, shownError_handleRegister in Shown.
    destruct (firstFailing (hooks p)); [reflexivity | discriminate Shown].
  - left. exact A.
  - right. unfold shownError in *. rewrite V, M in Shown.
    exists m. exact Shown.
Qed.

(** C10: the initial page shows no error although its message hook
    already holds the existing-credentials text, and along any sequence
    of events an error is shown only if some earlier event was a failed
    attempt: a submit whose validation failed or a pending post that
    threw. *)
Theorem error_shown_only_after_failed_attempt :
  shownError initialPage = None /\
  isValidCredentials (hooks initialPage) = true /\
  errorMessage (hooks initialPage) = EXISTING_CREDENTIALS_ERROR /\
  (forall (evs : list Event) (m : string),
     shownError (run ROUTES evs initialPage) = Some m ->
     exists (before : list Event) (ev : Event) (after : list Event),
       evs = before ++ ev :: after /\
       attemptFails (run ROUTES before initialPage) ev = true).
Proof.
  repeat split.
  intros evs. induction evs as [|ev evs IH] using rev_ind; intros m Shown.
  - discriminate Shown.
  - rewrite run_snoc in Shown.
    destruct (error_shown_step _ _ _ Shown) as [A | [m' Before]].
    + exists evs, ev, []. split; [reflexivity | exact A].
    + destruct (IH m' Before) as (before & ev' & after & -> & A).
      exists before, ev', (after ++ [ev]). split; [|exact A].
      rewrite <- app_assoc. reflexivity.
Qed.

(** * The page as a transition system *)

Lemma sameFlow_refl (p : Page) : sameFlow p p.
Proof. repeat split. Qed.

(** One event moves the page by one of the shapes of [Transition]. *)
Lemma step_is_transition (p : Page) (ev : Event) :
  Transition ROUTES p (step ROUTES p ev).
Proof.
  destruct (submits p ev) eqn:S.
  { rewrite (step_submits p ev S).
    destruct (firstFailing (hooks p)) as [r|] eqn:E.
    - rewrite (handleRegister_fails p r E). apply T_rejected. exact E.
    - rewrite (handleRegister_passes p E). apply T_posted. exact E. }
  assert (G : clickedGetStarted (hooks p) = false ->
              Transition ROUTES p (exec (handleGetStarted (hooks p)) p)).
  { intros C. rewrite (handleGetStarted_reveals p C).
    destruct (Nat.ltb 0 (String.length (emailRef p))) eqn:L.
    - apply T_reveal; [exact C | apply string_length_pos; exact L].
    - apply T_fields, sameFlow_refl. }
  destruct ev as [v|key| |v|key|v|v| |i o]; cbn [submits] in S;
    try discriminate S.
  - apply T_fields. repeat split.
  - unfold step, dispatch, exec. cbv beta zeta.
    destruct (String.eqb key "Enter"); cbn [andb] in S.
    + apply G. exact S.
    + apply T_fields, sameFlow_refl.
  - apply G. exact S.
  - apply T_fields. repeat split.
  - unfold step, dispatch, exec. cbv beta zeta.
    destruct (String.eqb key "Enter"); cbn [andb] in S.
    + apply G. exact S.
    + apply T_fields, sameFlow_refl.
  - apply T_fields. repeat split.
  - apply T_fields. repeat split.
  - destruct (nth_error (pending p) i) as [b|] eqn:N.
    + rewrite (step_settled p i o b N). destruct o as [|err].
      * apply (T_navigated ROUTES p i b N).
      * rewrite resume_thrown. apply (T_thrown ROUTES p i b err N).
    + unfold step, dispatch, exec. rewrite N. apply T_fields, sameFlow_refl.
Qed.

(** An invariant of the initial page that every transition keeps holds
    after any sequence of events. *)
Lemma run_invariant (Inv : Page -> Prop) :
  (forall p p', Inv p -> Transition ROUTES p p' -> Inv p') ->
  forall (evs : list Event) (p : Page), Inv p -> Inv (run ROUTES evs p).
Proof.
  intros Keep evs. induction evs as [|ev evs IH]; intros p I.
  - exact I.
  - cbn [run fold_left]. apply IH.
    apply (Keep p); [exact I | apply step_is_transition].
Qed.

(** X1: whatever the event, the page moves by one of the six shapes of
    [Transition]: fields edited or nothing, details revealed, submit
    rejected, submit posted, pending post fulfilled, pending post thrown.
    Hence a property of the initial page that these six shapes keep holds
    after every sequence of events. *)
Theorem step_transition :
  (forall (p : Page) (ev : Event), Transition ROUTES p (step ROUTES p ev)) /\
  (forall Inv : Page -> Prop,
     Inv initialPage ->
     (forall p p', Inv p -> Transition ROUTES p p' -> Inv p') ->
     forall evs : list Event, Inv (run ROUTES evs initialPage)).
Proof.
  split.
  - exact step_is_transition.
  - intros Inv Init Keep evs. apply run_invariant; [exact Keep | exact Init].
Qed.

(** ** Only validated credentials are posted *)

Lemma validBody_bodyOf (s : State) :
  firstFailing s = None -> validBody (bodyOf s) = true.
Proof.
  intros E. apply allPass_firstFailing in E. revert E.
  unfold allPass, validationOrder, passes, validBody.
  cbn [forallb fieldOf applyRule bodyOf body_email body_phone body_username
       body_password].
  rewrite andb_true_r, !andb_assoc. trivial.
Qed.

Lemma forallb_regexCalls (f : Rule -> string) (l : list Rule) :
  forallb postValidated (map (fun q => RegexCall q (f q)) l) = true.
Proof. induction l as [|q l IH]; cbn; [reflexivity | exact IH]. Qed.

Lemma forallb_remove_nth {A} (f : A -> bool) (i : nat) (l : list A) :
  forallb f l = true -> forallb f (remove_nth i l) = true.
Proof.
  revert i. induction l as [|x l IH]; intros [|i]; cbn [remove_nth forallb];
    intros H; try reflexivity; apply andb_true_iff in H; destruct H as [H1 H2].
  - exact H2.
  - rewrite H1. apply IH. exact H2.
Qed.

(** X2: the page never posts credentials that fail validation.  After any
    sequence of events from the initial page, every POST in the log went
    to [auth/register] with a body whose email, phone, username and
    password pass the four [RegexUtil] checks, and so does every body
    still pending. *)
Theorem only_validated_credentials_posted (evs : list Event) :
  let p := run ROUTES evs initialPage in
  forallb postValidated (effects p) = true /\
  forallb validBody (pending p) = true.
Proof.
  apply (run_invariant (fun p =>
    forallb postValidated (effects p) = true /\
    forallb validBody (pending p) = true)); [|split; reflexivity].
  intros p p' [IE IP] T.
  destruct T as [p' (_ & _ & _ & P & E) | C N | r F | F | i b N | i b err N];
    cbn [effects pending].
  - rewrite P, E. split; assumption.
  - split; assumption.
  - split; [|exact IP]. rewrite forallb_app, IE. cbn [forallb postValidated andb].
    apply forallb_regexCalls.
  - split.
    + rewrite forallb_app, IE. cbn [forallb postValidated andb].
      rewrite forallb_app, forallb_regexCalls. cbn.
      rewrite (validBody_bodyOf _ F). reflexivity.
    + rewrite forallb_app, IP. cbn. rewrite (validBody_bodyOf _ F). reflexivity.
  - split.
    + rewrite forallb_app, IE. reflexivity.
    + apply forallb_remove_nth. exact IP.
  - split; [exact IE | apply forallb_remove_nth; exact IP].
Qed.

(** ** Navigation *)

Lemma length_remove_nth_some {A} (i : nat) (l : list A) (x : A) :
  nth_error l i = Some x -> S (length (remove_nth i l)) = length l.
Proof.
  revert i. induction l as [|y l IH]; intros [|i]; cbn [remove_nth nth_error length];
    intros H; try discriminate H.
  - reflexivity.
  - rewrite (IH i H). reflexivity.
Qed.

(** X3: the page only ever navigates to the login route with
    [justRegistered: true], and only for a post that was fulfilled: after
    any sequence of events from the initial page every [navigate] call in
    the log is that one, and the navigations plus the posts still pending
    never exceed the posts issued. *)
Theorem navigation_only_after_post (evs : list Event) :
  let p := run ROUTES evs initialPage in
  Forall (fun n => n = loginNavigation ROUTES) (navigations (effects p)) /\
  length (navigations (effects p)) + length (pending p) <= posts (effects p).
Proof.
  apply (run_invariant (fun p =>
    Forall (fun n => n = loginNavigation ROUTES) (navigations (effects p)) /\
    length (navigations (effects p)) + length (pending p) <= posts (effects p)));
    [|split; [constructor | cbn; lia]].
  intros p p' [IF IL] T.
  destruct T as [p' (_ & _ & _ & P & E) | C N | r F | F | i b N | i b err N];
    cbn [effects pending].
  - rewrite P, E. split; assumption.
  - split; assumption.
  - rewrite navigations_app, posts_app. cbn [navigations posts].
    rewrite navigations_regexCalls, posts_regexCalls, app_nil_r.
    split; [exact IF | lia].
  - rewrite navigations_app, posts_app. cbn [navigations posts].
    rewrite navigations_app, posts_app, navigations_regexCalls, posts_regexCalls.
    cbn [navigations posts]. rewrite app_nil_r, length_app. cbn [length].
    split; [exact IF | lia].
  - rewrite navigations_app, posts_app. cbn [navigations posts].
    pose proof (length_remove_nth_some i (pending p) b N) as R.
    split.
    + apply Forall_app. split; [exact IF | repeat constructor].
    + rewrite length_app. cbn [length]. lia.
  - pose proof (length_remove_nth_some i (pending p) b N) as R.
    split; [exact IF | lia].
Qed.

(** ** The reveal of the detail fields *)

(** No transition clears [clickedGetStarted]. *)
Lemma transition_keeps_reveal (p p' : Page) :
  clickedGetStarted (hooks p) = true -> Transition ROUTES p p' ->
  clickedGetStarted (hooks p') = true.
Proof.
  intros I T.
  destruct T as [p' (C & _) | C N | r F | F | i b N | i b err N];
    cbn [hooks clickedGetStarted rejectedWith withClickedGetStarted
         withIsValidCredentials]; congruence.
Qed.

Lemma run_keeps_reveal (p : Page) (evs : list Event) :
  clickedGetStarted (hooks p) = true ->
  clickedGetStarted (hooks (run ROUTES evs p)) = true.
Proof.
  apply (run_invariant (fun q => clickedGetStarted (hooks q) = true)).
  exact transition_keeps_reveal.
Qed.

(** X4: once the detail fields are revealed they stay revealed, whatever
    happens next: after any further events, and in particular after any
    single one. *)
Theorem reveal_is_permanent (p : Page) (evs : list Event) :
  clickedGetStarted (hooks p) = true ->
  clickedGetStarted (hooks (run ROUTES evs p)) = true /\
  (forall ev : Event, clickedGetStarted (hooks (step ROUTES p ev)) = true).
Proof.
  intros C. split.
  - apply run_keeps_reveal. exact C.
  - intros ev. apply (transition_keeps_reveal p); [exact C|].
    apply step_is_transition.
Qed.

(** One offered event on a page whose details are hidden and that is
    untouched: the details are hidden and the page untouched, or the
    details are revealed. *)
Lemma step_untouched (p : Page) (ev : Event) :
  clickedGetStarted (hooks p) = false -> untouched p ->
  offered p ev = true ->
  clickedGetStarted (hooks (step ROUTES p ev)) = true \/
  (clickedGetStarted (hooks (step ROUTES p ev)) = false /\
   untouched (step ROUTES p ev)).
Proof.
  intros C U O.
  assert (G : forall ev', submits p ev' = false ->
    match ev' with
    | EmailKeyDown _ | PhoneKeyDown _ | GetStartedClick =>
        clickedGetStarted (hooks (step ROUTES p ev')) = true \/
        (clickedGetStarted (hooks (step ROUTES p ev')) = false /\
         untouched (step ROUTES p ev'))
    | _ => True
    end).
  { intros ev' S. pose proof (step_getStarted_cases p ev' S) as K.
    destruct ev'; try exact I; destruct K as [-> | ->]; auto. }
  destruct ev as [v|key| |v|key|v|v| |i o]; cbn [offered] in O;
    try congruence.
  - right. split; [exact C | exact U].
  - apply (G (EmailKeyDown key)). cbn [submits]. rewrite C. apply andb_false_r.
  - apply (G GetStartedClick). exact C.
  - destruct U as (_ & _ & _ & _ & _ & P & _). rewrite P in O.
    destruct i; discriminate O.
Qed.

(** X5: along events the page offers, nothing happens before the detail
    fields are revealed: as long as [clickedGetStarted] is false the
    phone, username and password are empty, no error is shown, and no
    check, post or navigation has been made. *)
Theorem nothing_before_reveal (evs : list Event) :
  allOffered ROUTES evs initialPage = true ->
  clickedGetStarted (hooks (run ROUTES evs initialPage)) = false ->
  untouched (run ROUTES evs initialPage) /\
  shownError (run ROUTES evs initialPage) = None.
Proof.
  assert (K : forall (l : list Event) (p : Page),
    clickedGetStarted (hooks p) = false -> untouched p ->
    allOffered ROUTES l p = true ->
    clickedGetStarted (hooks (run ROUTES l p)) = false ->
    untouched (run ROUTES l p)).
  { induction l as [|ev l IH]; intros p C U O F.
    - exact U.
    - cbn [allOffered] in O. apply andb_true_iff in O. destruct O as [O1 O2].
      cbn [run fold_left] in F |- *.
      destruct (step_untouched p ev C U O1) as [R | [C' U']].
      + pose proof (run_keeps_reveal _ l R) as R'. unfold run in R'.
        congruence.
      + apply IH; assumption. }
  intros O F.
  assert (U : untouched (run ROUTES evs initialPage)).
  { apply K; [reflexivity | repeat split | exact O | exact F]. }
  split; [exact U|].
  destruct U as (_ & _ & _ & V & _). unfold shownError. rewrite V. reflexivity.
Qed.

(** ** Messages *)

(** X6: the message hook only ever holds one of the six texts of
    [ERROR_MESSAGES] (the username and password texts completed with
    their minimum length), after any sequence of events from the initial
    page. *)
Theorem message_is_enumerated (evs : list Event) :
  knownMessage (errorMessage (hooks (run ROUTES evs initialPage))).
Proof.
  apply (run_invariant (fun p => knownMessage (errorMessage (hooks p))));
    [|left; reflexivity].
  intros p p' I T.
  destruct T as [p' (_ & _ & M & _) | C N | r F | F | i b N | i b err N];
    cbn [hooks errorMessage rejectedWith withClickedGetStarted
         withIsValidCredentials].
  - rewrite M. exact I.
  - exact I.
  - right. right. exists r. reflexivity.
  - exact I.
  - exact I.
  - destruct (isStatus403 err); [left | right; left]; reflexivity.
Qed.

Lemma isStatus403_iff (err : AxiosError) :
  isStatus403 err = true <-> response err = Some {| status := 403 |}.
Proof.
  unfold isStatus403. destruct (response err) as [[st]|]; cbn [status].
  - rewrite Z.eqb_eq. split; intros H; [subst st; reflexivity | congruence].
  - split; intros H; discriminate H.
Qed.

(** X7: a pending post that throws shows the existing-credentials message
    exactly when the error carries a response with status 403, and the
    generic server error in every other case; this holds on any page,
    whatever happened between the submit and the answer. *)
Theorem conflict_message_iff_403 (p : Page) (i : nat) (err : AxiosError) :
  i < length (pending p) ->
  let p' := step ROUTES p (PromiseSettled i (Thrown err)) in
  (shownError p' = Some EXISTING_CREDENTIALS_ERROR <->
   response err = Some {| status := 403 |}) /\
  (shownError p' = Some GENERIC_SERVER_ERROR <->
   response err <> Some {| status := 403 |}).
Proof.
  intros L p'. subst p'.
  destruct (nth_error (pending p) i) as [b|] eqn:N;
    [| apply nth_error_None in N; lia].
  rewrite (step_settled p i _ b N), resume_thrown.
  unfold shownError. cbn [hooks rejectedWith isValidCredentials errorMessage].
  rewrite <- isStatus403_iff.
  destruct (isStatus403 err); split; split; intros H;
    first [reflexivity | discriminate H | congruence | (exfalso; congruence)].
Qed.

(** ** Typing and submitting *)

(** X8: edits of different fields commute, and of two edits of the same
    field the later one wins. *)
Theorem field_edits_compose (p : Page) (f g : Field) (v w : string) :
  (f <> g ->
   step ROUTES (step ROUTES p (changeEvent f v)) (changeEvent g w)
   = step ROUTES (step ROUTES p (changeEvent g w)) (changeEvent f v)) /\
  step ROUTES (step ROUTES p (changeEvent f v)) (changeEvent f w)
  = step ROUTES p (changeEvent f w).
Proof.
  split.
  - intros D. destruct f, g; first [reflexivity | contradiction].
  - destruct f; reflexivity.
Qed.

(** X9: what is typed is what is posted.  After the four fields are
    edited to values that pass the checks, 'Sign Up' checks exactly these
    values, in order, and posts them to [auth/register]; the post is
    pending and no error is shown. *)
Theorem typed_values_are_posted (p : Page) (e ph u pw : string) :
  isValidEmailFormat e = true ->
  isValidPhoneFormat ph = true ->
  isValidUsernameFormat u = true ->
  isValidPasswordFormat pw = true ->
  let typed :=
    {| body_username := u; body_email := e;
       body_phone := ph; body_password := pw |} in
  let q := run ROUTES
             [EmailChange e; PhoneChange ph; UsernameChange u;
              PasswordChange pw; SignUpClick] p in
  pending q = pending p ++ [typed] /\
  effects q = effects p ++
    [PreventDefault; RegexCall EmailRule e; RegexCall PhoneRule ph;
     RegexCall UsernameRule u; RegexCall PasswordRule pw;
     AxiosPost "auth/register" typed] /\
  shownError q = None.
Proof.
  intros He Hph Hu Hpw typed q. subst q.
  set (p4 := run ROUTES
               [EmailChange e; PhoneChange ph; UsernameChange u; PasswordChange pw] p).
  assert (A : allPass (hooks p4) = true).
  { unfold allPass, validationOrder, passes.
    cbn [forallb fieldOf applyRule p4 run fold_left step dispatch exec].
    cbn. rewrite He, Hph, Hu, Hpw. reflexivity. }
  change (run ROUTES
            [EmailChange e; PhoneChange ph; UsernameChange u;
             PasswordChange pw; SignUpClick] p)
    with (step ROUTES p4 SignUpClick).
  rewrite (signUp_passes p4 A). repeat split.
Qed.

(** X10: a second 'Sign Up' on unchanged fields leaves the hooks as the
    first one did: the same error, or none, is shown; only the log and
    the pending posts grow. *)
Theorem resubmit_same_hooks (p : Page) :
  let p1 := step ROUTES p SignUpClick in
  let p2 := step ROUTES p1 SignUpClick in
  hooks p2 = hooks p1 /\ shownError p2 = shownError p1 /\
  length (pending p2) = length (pending p1) + (if allPass (hooks p) then 1 else 0).
Proof.
  intros p1 p2.
  assert (H1 : p1 = exec (handleRegister (hooks p)) p) by reflexivity.
  assert (H2 : p2 = exec (handleRegister (hooks p1)) p1) by reflexivity.
  assert (HH : hooks p2 = hooks p1).
  { destruct (firstFailing (hooks p)) as [r|] eqn:E.
    - rewrite (handleRegister_fails p r E) in H1.
      assert (E1 : firstFailing (hooks p1) = Some r) by (rewrite H1; exact E).
      rewrite (handleRegister_fails p1 r E1) in H2. rewrite H2. cbn [hooks].
      rewrite H1. reflexivity.
    - rewrite (handleRegister_passes p E) in H1.
      assert (E1 : firstFailing (hooks p1) = None) by (rewrite H1; exact E).
      rewrite (handleRegister_passes p1 E1) in H2. rewrite H2. cbn [hooks].
      rewrite H1. reflexivity. }
  split; [exact HH | split].
  - unfold shownError. rewrite HH. reflexivity.
  - rewrite H2. rewrite (proj1 (handleRegister_pending p1)).
    replace (allPass (hooks p1)) with (allPass (hooks p)); [reflexivity|].
    rewrite H1. destruct (firstFailing (hooks p)) as [r|] eqn:E.
    + rewrite (handleRegister_fails p r E). reflexivity.
    + rewrite (handleRegister_passes p E). reflexivity.
Qed.

(** X11: every way of submitting runs the same handler: an event that
    submits ('Sign Up', or 'Get Started' or Enter in the email or phone
    box once the details are revealed) leaves the page exactly as a click
    on 'Sign Up' does; and a key other than Enter changes nothing. *)
Theorem submit_paths_agree (p : Page) (ev : Event) (key : string) :
  (submits p ev = true -> step ROUTES p ev = step ROUTES p SignUpClick) /\
  (key <> "Enter" ->
   step ROUTES p (EmailKeyDown key) = p /\ step ROUTES p (PhoneKeyDown key) = p).
Proof.
  split.
  - intros S. rewrite (step_submits p ev S). reflexivity.
  - intros K. apply String.eqb_neq in K.
    unfold step, dispatch, exec. rewrite K. split; reflexivity.
Qed.

End RegisterProperties.

(** * Concrete runs *)

Lemma handleRegister_stops_at_first_failing_rule_witness :
  isValidEmailFormat (RegexUtil := sampleConfig) (email (hooks badEmailPage)) = false /\
  shownError (exec (handleRegister (regexUtil := sampleConfig) (hooks badEmailPage))
                badEmailPage)
  = Some INVALID_EMAIL_ERROR /\
  effects (exec (handleRegister (regexUtil := sampleConfig) (hooks badEmailPage))
             badEmailPage)
  = [PreventDefault; RegexCall EmailRule "user.example.com"].
Proof.
  split; [reflexivity|].
  exact (proj2 (proj2
    (@handleRegister_stops_at_first_failing_rule sampleConfig badEmailPage))
    eq_refl).
Defined.

Lemma validation_total_and_exclusive_witness :
  exists! o : Outcome,
    yields (regexUtil := sampleConfig) filledPage
      (exec (handleRegister (regexUtil := sampleConfig) (hooks filledPage)) filledPage) o.
Proof. exact (@validation_total_and_exclusive sampleConfig filledPage). Defined.

Lemma register_success_navigates_to_login_witness :
  allPass (regexUtil := sampleConfig) (hooks filledPage) = true /\
  navigations
    (effects
       (step (regexUtil := sampleConfig) sampleRoutes
          (step (regexUtil := sampleConfig) sampleRoutes filledPage SignUpClick)
          (PromiseSettled 0 Fulfilled)))
  = [("/login", {| justRegistered := true |})].
Proof.
  split; [reflexivity|].
  destruct (@register_success_navigates_to_login sampleConfig sampleRoutes
              filledPage eq_refl) as (_ & _ & _ & N & _).
  exact N.
Defined.

Lemma register_conflict_shows_existing_credentials_witness :
  allPass (regexUtil := sampleConfig) (hooks filledPage) = true /\
  shownError
    (step (regexUtil := sampleConfig) sampleRoutes
       (step (regexUtil := sampleConfig) sampleRoutes filledPage SignUpClick)
       (PromiseSettled 0 (Thrown {| response := Some {| status := 403 |} |})))
  = Some EXISTING_CREDENTIALS_ERROR.
Proof.
  split; [reflexivity|].
  exact (proj1 (@register_conflict_shows_existing_credentials sampleConfig
                  sampleRoutes filledPage eq_refl)).
Defined.

Lemma register_other_failure_shows_generic_error_witness :
  allPass (regexUtil := sampleConfig) (hooks filledPage) = true /\
  (forall r, response {| response := None |} = Some r -> status r <> 403%Z) /\
  shownError
    (step (regexUtil := sampleConfig) sampleRoutes
       (step (regexUtil := sampleConfig) sampleRoutes filledPage SignUpClick)
       (PromiseSettled 0 (Thrown {| response := None |})))
  = Some GENERIC_SERVER_ERROR.
Proof.
  assert (H : forall r, response {| response := None |} = Some r ->
                        status r <> 403%Z)
    by (intros r E; discriminate E).
  split; [reflexivity | split; [exact H|]].
  exact (proj1 (@register_other_failure_shows_generic_error sampleConfig
                  sampleRoutes filledPage {| response := None |} eq_refl H)).
Defined.

(** C5 as stated fails: typing well-formed values and clicking 'Sign Up'
    twice, all of it offered by the page, leaves two posts pending; and
    'Sign Up' is offered while the first post is pending. *)
Lemma double_submit_two_pending :
  allOffered (regexUtil := sampleConfig) sampleRoutes doubleSubmit initialPage = true /\
  length (pending (run (regexUtil := sampleConfig) sampleRoutes doubleSubmit
                     initialPage)) = 2 /\
  ~ singleFlight /\
  ~ submitGated.
Proof.
  split; [reflexivity | split; [reflexivity | split]].
  - intros H.
    specialize (H sampleConfig sampleRoutes doubleSubmit eq_refl).
    vm_compute in H. lia.
  - intros H.
    specialize (H sampleConfig sampleRoutes (fillIn ++ [SignUpClick])
                  eq_refl eq_refl).
    discriminate H.
Qed.

Lemma handleGetStarted_advances_witness :
  clickedGetStarted (hooks typedPage) = false /\
  emailRef typedPage <> "" /\
  clickedGetStarted
    (hooks (exec (handleGetStarted (regexUtil := sampleConfig) (hooks typedPage))
              typedPage)) = true.
Proof.
  assert (N : emailRef typedPage <> "") by discriminate.
  split; [reflexivity | split; [exact N|]].
  destruct (@handleGetStarted_advances sampleConfig sampleRoutes typedPage)
    as (A & _).
  exact (proj2 (proj1 (A eq_refl)) N).
Defined.

Lemma field_setters_change_only_their_field_witness :
  shownError correctedPage = Some INVALID_EMAIL_ERROR /\
  shownError (step (regexUtil := sampleConfig) sampleRoutes correctedPage SignUpClick)
  = None /\
  submits correctedPage SignUpClick = true /\
  allPass (regexUtil := sampleConfig) (hooks correctedPage) = true.
Proof.
  split; [reflexivity | split; [reflexivity|]].
  destruct (@field_setters_change_only_their_field sampleConfig sampleRoutes
              EmailField "user@example.com" correctedPage)
    as (_ & _ & _ & _ & _ & _ & _ & _ & H & _).
  exact (H SignUpClick INVALID_EMAIL_ERROR eq_refl eq_refl).
Defined.

Lemma rejected_submission_keeps_fields_witness :
  firstFailing (regexUtil := sampleConfig) (hooks badEmailPage) = Some EmailRule /\
  hooks (step (regexUtil := sampleConfig) sampleRoutes badEmailPage SignUpClick)
  = rejectedWith INVALID_EMAIL_ERROR (hooks badEmailPage).
Proof.
  split; [reflexivity|].
  destruct (@rejected_submission_keeps_fields sampleConfig sampleRoutes
              badEmailPage {| response := None |}) as (H & _).
  exact (proj1 (H EmailRule eq_refl)).
Defined.

Lemma error_shown_only_after_failed_attempt_witness :
  shownError (run (regexUtil := sampleConfig) sampleRoutes badAttempt initialPage)
  = Some INVALID_EMAIL_ERROR /\
  exists (before : list Event) (ev : Event) (after : list Event),
    badAttempt = before ++ ev :: after /\
    attemptFails (regexUtil := sampleConfig)
      (run (regexUtil := sampleConfig) sampleRoutes before initialPage) ev = true.
Proof.
  split; [reflexivity|].
  destruct (@error_shown_only_after_failed_attempt sampleConfig sampleRoutes)
    as (_ & _ & _ & H).
  exact (H badAttempt INVALID_EMAIL_ERROR eq_refl).
Defined.

Lemma reveal_is_permanent_witness :
  clickedGetStarted (hooks filledPage) = true /\
  clickedGetStarted
    (hooks (run (regexUtil := sampleConfig) sampleRoutes
              [EmailChange ""; GetStartedClick; SignUpClick;
               PromiseSettled 0 Fulfilled] filledPage)) = true.
Proof.
  split; [reflexivity|].
  exact (proj1 (@reveal_is_permanent sampleConfig sampleRoutes filledPage _ eq_refl)).
Defined.

Lemma nothing_before_reveal_witness :
  allOffered (regexUtil := sampleConfig) sampleRoutes
    [EmailChange "user@example.com"; EmailKeyDown "Tab"] initialPage = true /\
  clickedGetStarted
    (hooks (run (regexUtil := sampleConfig) sampleRoutes
              [EmailChange "user@example.com"; EmailKeyDown "Tab"] initialPage))
  = false /\
  effects (run (regexUtil := sampleConfig) sampleRoutes
             [EmailChange "user@example.com"; EmailKeyDown "Tab"] initialPage)
  = [].
Proof.
  split; [reflexivity | split; [reflexivity|]].
  destruct (@nothing_before_reveal sampleConfig sampleRoutes
              [EmailChange "user@example.com"; EmailKeyDown "Tab"]
              eq_refl eq_refl) as ((_ & _ & _ & _ & _ & _ & E) & _).
  exact E.
Defined.

Lemma conflict_message_iff_403_witness :
  0 < length (pending (step (regexUtil := sampleConfig) sampleRoutes
                         filledPage SignUpClick)) /\
  shownError
    (step (regexUtil := sampleConfig) sampleRoutes
       (step (regexUtil := sampleConfig) sampleRoutes filledPage SignUpClick)
       (PromiseSettled 0 (Thrown {| response := Some {| status := 500 |} |})))
  = Some GENERIC_SERVER_ERROR.
Proof.
  assert (L : 0 < length (pending (step (regexUtil := sampleConfig) sampleRoutes
                                     filledPage SignUpClick)))
    by (vm_compute; lia).
  split; [exact L|].
  destruct (@conflict_message_iff_403 sampleConfig sampleRoutes
              (step (regexUtil := sampleConfig) sampleRoutes filledPage SignUpClick)
              0 {| response := Some {| status := 500 |} |} L) as [_ [_ G]].
  apply G. discriminate.
Defined.

Lemma field_edits_compose_witness :
  EmailField <> PasswordField /\
  step (regexUtil := sampleConfig) sampleRoutes
    (step (regexUtil := sampleConfig) sampleRoutes initialPage
       (EmailChange "user@example.com"))
    (PasswordChange "correct horse")
  = step (regexUtil := sampleConfig) sampleRoutes
      (step (regexUtil := sampleConfig) sampleRoutes initialPage
         (PasswordChange "correct horse"))
      (EmailChange "user@example.com").
Proof.
  assert (D : EmailField <> PasswordField) by discriminate.
  split; [exact D|].
  exact (proj1 (@field_edits_compose sampleConfig sampleRoutes initialPage
                  EmailField PasswordField "user@example.com" "correct horse") D).
Defined.

Lemma typed_values_are_posted_witness :
  isValidEmailFormat (RegexUtil := sampleConfig) "user@example.com" = true /\
  isValidPhoneFormat (RegexUtil := sampleConfig) "(555) 123-4567" = true /\
  isValidUsernameFormat (RegexUtil := sampleConfig) "validUser" = true /\
  isValidPasswordFormat (RegexUtil := sampleConfig) "correct horse" = true /\
  pending
    (run (regexUtil := sampleConfig) sampleRoutes
       [EmailChange "user@example.com"; PhoneChange "(555) 123-4567";
        UsernameChange "validUser"; PasswordChange "correct horse"; SignUpClick]
       initialPage)
  = [{| body_username := "validUser"; body_email := "user@example.com";
        body_phone := "(555) 123-4567"; body_password := "correct horse" |}].
Proof.
  repeat (split; [reflexivity|]).
  exact (proj1 (@typed_values_are_posted sampleConfig sampleRoutes initialPage
                  "user@example.com" "(555) 123-4567" "validUser" "correct horse"
                  eq_refl eq_refl eq_refl eq_refl)).
Defined.

Lemma submit_paths_agree_witness :
  submits filledPage (PhoneKeyDown "Enter") = true /\
  step (regexUtil := sampleConfig) sampleRoutes filledPage (PhoneKeyDown "Enter")
  = step (regexUtil := sampleConfig) sampleRoutes filledPage SignUpClick.
Proof.
  split; [reflexivity|].
  exact (proj1 (@submit_paths_agree sampleConfig sampleRoutes filledPage
                  (PhoneKeyDown "Enter") "Tab") eq_refl).
Defined.

Lemma step_transition_witness :
  errorMessage (hooks initialPage) <> "" /\
  errorMessage
    (hooks (run (regexUtil := sampleConfig) sampleRoutes doubleSubmit initialPage))
  <> "".
Proof.
  assert (Init : errorMessage (hooks initialPage) <> "") by discriminate.
  split; [exact Init|].
  apply (proj2 (@step_transition sampleConfig sampleRoutes)
           (fun p => errorMessage (hooks p) <> "") Init).
  intros p p' I T.
  destruct T as [p' (_ & _ & M & _) | C N | r F | F | i b N | i b err N];
    cbn [hooks errorMessage rejectedWith withClickedGetStarted
         withIsValidCredentials].
  - rewrite M. exact I.
  - exact I.
  - destruct r; discriminate.
  - exact I.
  - exact I.
  - destruct (isStatus403 err); discriminate.
Defined.
